(* Shallow embedding of server.py (AI Hub Backend): the three FastAPI
   routes /api/health, / and /api/chat, with the request body as a parsed
   JSON value, Python strings as lists of Unicode code points, and the
   OpenAI client call as an effect of a small request program. *)

From Stdlib Require Import String Ascii List ZArith QArith Bool Lia.
Import ListNotations.
Open Scope Z_scope.
Set Warnings "-register-all".

(* ------------------------------------------------------------------ *)
(** * Python values *)

Module Py.

(** A Python [str]: the sequence of its Unicode code points. *)
Definition pystr := list Z.

(** ASCII string literal of the source as a [str]. *)
Fixpoint lit (s : string) : pystr :=
  match s with
  | EmptyString => []
  | String a s' => Z.of_nat (nat_of_ascii a) :: lit s'
  end.

Definition pystr_eqb (a b : pystr) : bool :=
  if list_eq_dec Z.eq_dec a b then true else false.

(** [str.isspace] on one character (CPython's [Py_UNICODE_ISSPACE]). *)
Definition isspace (c : Z) : bool :=
  ((9 <=? c) && (c <=? 13)) || ((28 <=? c) && (c <=? 32))
  || (c =? 133) || (c =? 160) || (c =? 5760)
  || ((8192 <=? c) && (c <=? 8202))
  || (c =? 8232) || (c =? 8233) || (c =? 8239) || (c =? 8287)
  || (c =? 12288).

Fixpoint lstrip (s : pystr) : pystr :=
  match s with
  | [] => []
  | c :: s' => if isspace c then lstrip s' else s
  end.

(** [str.strip()] with no argument. *)
Definition strip (s : pystr) : pystr := rev (lstrip (rev (lstrip s))).

(** A JSON document as Python's [json] module decodes it. *)
Inductive JVal : Type :=
| JNull
| JBool (b : bool)
| JNum (q : Q)
| JStr (s : pystr)
| JList (l : list JVal)
| JObj (o : list (pystr * JVal)).

(** A Python [dict] decoded from a JSON object. *)
Definition dict := list (pystr * JVal).

(** [k in d] / [d[k]]: the binding of [k], if any. *)
Fixpoint dget (d : dict) (k : pystr) : option JVal :=
  match d with
  | [] => None
  | (k', v) :: d' => if pystr_eqb k k' then Some v else dget d' k
  end.

(** [d.get(k, default)]. *)
Definition dget_default (d : dict) (k : pystr) (default : JVal) : JVal :=
  match dget d k with Some v => v | None => default end.

(** Python truthiness ([bool(v)]). *)
Definition truthy (v : JVal) : bool :=
  match v with
  | JNull => false
  | JBool b => b
  | JNum q => negb (Qeq_bool q 0)
  | JStr s => match s with [] => false | _ => true end
  | JList l => match l with [] => false | _ => true end
  | JObj o => match o with [] => false | _ => true end
  end.

(** Truthiness of [OPENAI_API_KEY = os.getenv("OPENAI_API_KEY")],
    an [Optional[str]]. *)
Definition key_truthy (k : option pystr) : bool :=
  match k with Some (_ :: _) => true | _ => false end.

(** Python's universal-newline translation done by text-mode reads:
    [\r\n] and a lone [\r] both become [\n]. *)
Fixpoint translate_newlines (s : pystr) : pystr :=
  match s with
  | [] => []
  | c :: rest =>
      if c =? 13 then
        match rest with
        | d :: rest' => if d =? 10 then 10 :: translate_newlines rest'
                        else 10 :: translate_newlines rest
        | [] => [10]
        end
      else c :: translate_newlines rest
  end.

End Py.

Import Py.

(* ------------------------------------------------------------------ *)
(** * HTTP responses *)

Inductive body_kind : Type :=
| BJson (j : JVal)
| BHtml (h : pystr)
| BText (t : pystr).

Inductive response : Type := Resp (status : Z) (body : body_kind).

Definition status (r : response) : Z := match r with Resp s _ => s end.

(** [raise HTTPException(status_code=code, detail=detail)] as FastAPI
    renders it. *)
Definition http_exc (code : Z) (detail : pystr) : response :=
  Resp code (BJson (JObj [(lit "detail", JStr detail)])).

(** What Starlette answers for an exception the route does not handle. *)
Definition internal_error : response :=
  Resp 500 (BText (lit "Internal Server Error")).

(* ------------------------------------------------------------------ *)
(** * GET /api/health *)

Definition health (OPENAI_API_KEY : option pystr) : response :=
  Resp 200 (BJson (JObj
    [(lit "ok", JBool true);
     (lit "provider",
        JStr (if key_truthy OPENAI_API_KEY then lit "openai" else lit "unset"))])).

(* ------------------------------------------------------------------ *)
(** * GET / *)

(** The file [index.html] next to [server.py]: absent, present and read
    as UTF-8 text (its decoded code points), or present but failing
    [read_text] (a directory, undecodable bytes, no permission). *)
Inductive index_file : Type :=
| NoIndexFile
| IndexFile (text : pystr)
| IndexUnreadable (err : pystr).

(** ["<h1>AI Hub Backend</h1><p>Index bulunamadı.</p>"] *)
Definition root_fallback : pystr :=
  lit "<h1>AI Hub Backend</h1><p>Index bulunamad" ++ [305] ++ lit ".</p>".

Definition root (idx : index_file) : response :=
  match idx with
  | IndexFile text => Resp 200 (BHtml (translate_newlines text))
  | IndexUnreadable _ => internal_error
  | NoIndexFile => Resp 200 (BHtml root_fallback)
  end.

(* ------------------------------------------------------------------ *)
(** * POST /api/chat *)

Section Chat.

(** Python's [float()] builtin, for the two argument kinds whose result
    is a number: a JSON number ([int] or [float]; a huge [int] raises
    [OverflowError]) and a [str] (parsed, or [ValueError]). A failure
    carries [str(e)]. *)
Context {float_t : Type}.
Variable float_of_num : Q -> pystr + float_t.
Variable float_of_str : pystr -> pystr + float_t.

(** [float(v)] *)
Definition py_float (v : JVal) : pystr + float_t :=
  match v with
  | JNull => inl (lit "float() argument must be a string or a real number, not 'NoneType'")
  | JBool b => float_of_num (if b then 1 else 0)%Q
  | JNum q => float_of_num q
  | JStr s => float_of_str s
  | JList _ => inl (lit "float() argument must be a string or a real number, not 'list'")
  | JObj _ => inl (lit "float() argument must be a string or a real number, not 'dict'")
  end.

(** The arguments of [client.chat.completions.create(...)]. *)
Record call : Type := mk_call {
  c_model : JVal;
  c_messages : list JVal;
  c_temperature : float_t
}.

(** What the OpenAI client call does: raise an exception (network,
    authentication, rate limit, timeout, ...; carrying [str(e)]), or
    return a completion whose [choices] each hold a [message.content]
    ([None] or a [str]). *)
Inductive prov_result : Type :=
| ProvRaise (err : pystr)
| ProvReturn (choices : list (option pystr)).

(** A request handler as a program that either answers or performs one
    provider call and continues with its result. *)
Inductive prog : Type :=
| Done (r : response)
| CallProvider (c : call) (k : prov_result -> prog).

Definition DEFAULT_MODEL : pystr := lit "gpt-4o-mini".

Definition INPUT_ERROR : pystr :=
  lit "Provide 'input' (string) or 'messages' (list).".

(** [body.get("model") or "gpt-4o-mini"] *)
Definition resolve_model (body : dict) : JVal :=
  let v := dget_default body (lit "model") JNull in
  if truthy v then v else JStr DEFAULT_MODEL.

Definition user_message (text : pystr) : JVal :=
  JObj [(lit "role", JStr (lit "user")); (lit "content", JStr text)].

(** The [if "messages" in body and isinstance(body["messages"], list)]
    block: the message list, or the 400 it raises. *)
Definition resolve_messages (body : dict) : response + list JVal :=
  match dget body (lit "messages") with
  | Some (JList messages) => inr messages
  | _ =>
      match dget_default body (lit "input") JNull with
      | JStr user_text =>
          match strip user_text with
          | [] => inl (http_exc 400 INPUT_ERROR)
          | _ => inr [user_message (strip user_text)]
          end
      | _ => inl (http_exc 400 INPUT_ERROR)
      end
  end.

Definition openai_error (e : pystr) : response :=
  http_exc 500 (lit "OpenAI error: " ++ e).

(** [text = resp.choices[0].message.content; return {...}] *)
Definition handle_completion (model : JVal) (res : prov_result) : prog :=
  match res with
  | ProvRaise e => Done (openai_error e)
  | ProvReturn [] => Done (openai_error (lit "list index out of range"))
  | ProvReturn (content :: _) =>
      let text := match content with Some s => JStr s | None => JNull end in
      Done (Resp 200 (BJson (JObj [(lit "model", model); (lit "output", text)])))
  end.

(** [async def chat(body: Dict[str, Any])] *)
Definition chat (OPENAI_API_KEY : option pystr) (body : dict) : prog :=
  if negb (key_truthy OPENAI_API_KEY) then
    Done (http_exc 500 (lit "OPENAI_API_KEY missing"))
  else
    let model := resolve_model body in
    match resolve_messages body with
    | inl err => Done err
    | inr messages =>
        (* try: the arguments are evaluated, then the call is made *)
        match py_float (dget_default body (lit "temperature") (JNum (7 # 10))) with
        | inl e => Done (openai_error e)
        | inr temperature =>
            CallProvider (mk_call model messages temperature)
                         (handle_completion model)
        end
    end.

(** FastAPI's validation of the [body: Dict[str, Any]] parameter before
    [chat] runs: a JSON body that is not an object gets a 422. *)
Definition post_chat (OPENAI_API_KEY : option pystr) (raw : JVal) : prog :=
  match raw with
  | JObj body => chat OPENAI_API_KEY body
  | _ =>
      Done (Resp 422 (BJson (JObj [(lit "detail", JList [JObj
        [(lit "type", JStr (lit "dict_type")); (lit "loc", JList [JStr (lit "body")]);
         (lit "msg", JStr (lit "Input should be a valid dictionary"));
         (lit "input", raw)]])])))
  end.

(** Running a handler against a provider: the calls made, in order, and
    the response. *)
Fixpoint run (prov : call -> prov_result) (p : prog) : list call * response :=
  match p with
  | Done r => ([], r)
  | CallProvider c k =>
      let (cs, r) := run prov (k (prov c)) in (c :: cs, r)
  end.

Definition calls (prov : call -> prov_result) (p : prog) : list call :=
  fst (run prov p).

Definition answer (prov : call -> prov_result) (p : prog) : response :=
  snd (run prov p).

End Chat.

(* ------------------------------------------------------------------ *)
(** * Module-level configuration *)


(** A concrete [float()] for evaluating the handler on examples:
    JSON numbers kept as exact rationals, strings all rejected. *)
Definition float_num_exact (q : Q) : pystr + Q := inr q.

Definition float_str_reject (s : pystr) : pystr + Q :=
  inl (lit "could not convert string to float: '" ++ s ++ lit "'").

(** A provider that always answers with one choice. *)
Definition answering_provider {float_t : Type} (text : pystr)
  (c : @call float_t) : prov_result := ProvReturn [Some text].

(* ------------------------------------------------------------------ *)
(** * Properties of the handlers *)

Section ChatProps.

Context {float_t : Type}.
Variable float_of_num : Q -> pystr + float_t.
Variable float_of_str : pystr -> pystr + float_t.

Local Abbreviation handler := (chat float_of_num float_of_str).
Local Abbreviation to_float := (py_float float_of_num float_of_str).
Local Abbreviation temperature_of body :=
  (dget_default body (lit "temperature") (JNum (7 # 10))).

Ltac chat_cases key body :=
  unfold chat;
  destruct (key_truthy key) eqn:Hkey; cbv beta iota zeta delta [negb];
  [ destruct (resolve_messages body) as [?err | ?msgs] eqn:Hmsgs;
    [ | destruct (to_float (temperature_of body)) as [?e | ?t] eqn:Htemp ]
  | ].

Lemma run_handle_completion (prov : @call float_t -> prov_result) m res :
  run prov (handle_completion m res) =
  ([], match res with
       | ProvRaise e => openai_error e
       | ProvReturn [] => openai_error (lit "list index out of range")
       | ProvReturn (content :: _) =>
           Resp 200 (BJson (JObj [(lit "model", m);
             (lit "output", match content with Some s => JStr s | None => JNull end)]))
       end).
Proof. destruct res as [e | [| content rest]]; reflexivity. Qed.

Lemma status_handle_completion (prov : @call float_t -> prov_result) m res :
  status (answer prov (handle_completion m res)) = 200
  \/ status (answer prov (handle_completion m res)) = 500.
Proof.
  unfold answer. rewrite run_handle_completion.
  destruct res as [e | [| content rest]]; simpl; auto.
Qed.

(** Every provider call the handler makes is the one built from the
    resolved model, message list and temperature. *)
Lemma chat_call_inv key body (prov : @call float_t -> prov_result) c :
  In c (calls prov (handler key body)) ->
  key_truthy key = true
  /\ resolve_messages body = inr (c_messages c)
  /\ c_model c = resolve_model body
  /\ to_float (temperature_of body) = inr (c_temperature c)
  /\ calls prov (handler key body) = [c].
Proof.
  chat_cases key body; unfold calls; simpl; intros H; try contradiction.
  revert H. destruct (prov _) as [e' | [| x rest]]; simpl;
    intros [<- | []]; simpl; repeat split; auto.
Qed.

Lemma resolve_messages_list body l :
  dget body (lit "messages") = Some (JList l) -> resolve_messages body = inr l.
Proof. unfold resolve_messages. intros ->. reflexivity. Qed.

Lemma resolve_messages_input body t :
  (forall l, dget body (lit "messages") <> Some (JList l)) ->
  dget body (lit "input") = Some (JStr t) -> strip t <> [] ->
  resolve_messages body = inr [user_message (strip t)].
Proof.
  intros Hm Hi Ht. unfold resolve_messages, dget_default.
  destruct (dget body (lit "messages")) as [[] |] eqn:E;
    try (exfalso; eapply Hm; reflexivity);
    rewrite Hi; destruct (strip t); congruence.
Qed.

Lemma resolve_messages_err body err :
  resolve_messages body = inl err -> err = http_exc 400 INPUT_ERROR.
Proof.
  unfold resolve_messages, dget_default.
  destruct (dget body (lit "messages")) as [[] |];
    try (intros H; discriminate H || (injection H; auto));
    destruct (dget body (lit "input")) as [[] |];
    try (intros H; injection H; auto);
    destruct (strip _); intros H; discriminate H || (injection H; auto).
Qed.

(** The two accepted shapes of a chat request body. *)
Lemma resolve_messages_ok body msgs :
  resolve_messages body = inr msgs ->
  dget body (lit "messages") = Some (JList msgs)
  \/ ((forall l, dget body (lit "messages") <> Some (JList l))
      /\ exists t, dget body (lit "input") = Some (JStr t) /\ strip t <> []
                   /\ msgs = [user_message (strip t)]).
Proof.
  unfold resolve_messages, dget_default.
  destruct (dget body (lit "messages")) as [[| | | | l |] |] eqn:Em;
    try (intros H; injection H as <-; left; reflexivity);
    intros H; right; (split; [intros l' Hl'; discriminate Hl' |]);
    destruct (dget body (lit "input")) as [[| | | t | |] |]; try discriminate H;
    destruct (strip t) as [| x xs] eqn:Et; try discriminate H;
    injection H as <-; exists t; rewrite Et; repeat split; congruence.
Qed.

Lemma calls_call (prov : @call float_t -> prov_result) c k :
  calls prov (CallProvider c k) = c :: calls prov (k (prov c)).
Proof. unfold calls. simpl. destruct (run prov (k (prov c))). reflexivity. Qed.

Lemma answer_call (prov : @call float_t -> prov_result) c k :
  answer prov (CallProvider c k) = answer prov (k (prov c)).
Proof. unfold answer. simpl. destruct (run prov (k (prov c))). reflexivity. Qed.

(** C2: a body without a [messages] list but with a non-blank [input]
    string reaches the provider as the single user message holding the
    stripped [input]. *)
Theorem chat_input_normalized key body (prov : @call float_t -> prov_result) t :
  (forall l, dget body (lit "messages") <> Some (JList l)) ->
  dget body (lit "input") = Some (JStr t) ->
  strip t <> [] ->
  forall c, In c (calls prov (handler key body)) ->
  c_messages c = [user_message (strip t)].
Proof.
  intros Hm Hi Ht c Hc.
  destruct (chat_call_inv key body prov c Hc) as (_ & Hmsgs & _).
  rewrite (resolve_messages_input body t Hm Hi Ht) in Hmsgs.
  injection Hmsgs as <-. reflexivity.
Qed.

(** C3: a [messages] list is passed to the provider unchanged, whatever
    its elements, and the [input] field then plays no part: two bodies
    that differ only in [input] get the same calls and the same answer. *)
Theorem chat_messages_passthrough key body body' (prov : @call float_t -> prov_result) l :
  dget body (lit "messages") = Some (JList l) ->
  (forall k, k <> lit "input" -> dget body' k = dget body k) ->
  (forall c, In c (calls prov (handler key body)) -> c_messages c = l)
  /\ run prov (handler key body') = run prov (handler key body).
Proof.
  intros Hm Hsame. split.
  - intros c Hc.
    destruct (chat_call_inv key body prov c Hc) as (_ & Hmsgs & _).
    rewrite (resolve_messages_list body l Hm) in Hmsgs.
    injection Hmsgs as <-. reflexivity.
  - assert (Hm' : dget body' (lit "messages") = Some (JList l))
      by (rewrite Hsame; [exact Hm | discriminate]).
    assert (Hmod : resolve_model body' = resolve_model body)
      by (unfold resolve_model, dget_default; rewrite Hsame; [reflexivity | discriminate]).
    assert (Htemp : temperature_of body' = temperature_of body)
      by (unfold dget_default; rewrite Hsame; [reflexivity | discriminate]).
    unfold chat. rewrite Hmod, Htemp, (resolve_messages_list body' l Hm'),
      (resolve_messages_list body l Hm). reflexivity.
Qed.

(** C4: with a credential, a body with neither a [messages] list nor a
    non-blank [input] string is answered 400 with the fixed detail, and
    no provider call is made. *)
Theorem chat_rejects_missing_input key body :
  key_truthy key = true ->
  (forall l, dget body (lit "messages") <> Some (JList l)) ->
  (forall t, dget body (lit "input") = Some (JStr t) -> strip t = []) ->
  handler key body =
  Done (http_exc 400 (lit "Provide 'input' (string) or 'messages' (list).")).
Proof.
  intros Hkey Hm Hi. unfold chat. rewrite Hkey. cbv beta iota zeta delta [negb].
  assert (Hr : resolve_messages body = inl (http_exc 400 INPUT_ERROR)).
  { unfold resolve_messages, dget_default.
    destruct (dget body (lit "messages")) as [[] |] eqn:E;
      try (exfalso; eapply Hm; reflexivity);
      destruct (dget body (lit "input")) as [[] |] eqn:Ei; try reflexivity;
      rewrite (Hi _ eq_refl); reflexivity. }
  rewrite Hr. reflexivity.
Qed.

(** C5 (amended): with no credential, every JSON-object body is answered
    500 "OPENAI_API_KEY missing" before any other check and without a
    provider call; a body that is not a JSON object never reaches the
    handler and gets FastAPI's 422. *)
Theorem chat_requires_key key :
  key_truthy key = false ->
  (forall body, post_chat float_of_num float_of_str key (JObj body)
                = Done (http_exc 500 (lit "OPENAI_API_KEY missing")))
  /\ (forall raw, (forall o, raw <> JObj o) ->
      exists r, post_chat float_of_num float_of_str key raw = Done r /\ status r = 422).
Proof.
  intros Hkey. split.
  - intros body. simpl. unfold chat. rewrite Hkey. reflexivity.
  - intros [| | | | |] Hraw; try (eexists; split; reflexivity).
    exfalso. eapply Hraw. reflexivity.
Qed.

(** C6 (amended): the provider call and the success response carry the
    same resolved model, which is the body's [model] value when that is
    truthy in Python and "gpt-4o-mini" otherwise; a string model is
    truthy exactly when it is non-empty. *)
Theorem chat_model_resolution key body (prov : @call float_t -> prov_result) :
  (forall c, In c (calls prov (handler key body)) -> c_model c = resolve_model body)
  /\ (status (answer prov (handler key body)) = 200 ->
      exists out, answer prov (handler key body)
        = Resp 200 (BJson (JObj [(lit "model", resolve_model body); (lit "output", out)])))
  /\ (forall v, dget body (lit "model") = Some v -> truthy v = true -> resolve_model body = v)
  /\ ((forall v, dget body (lit "model") = Some v -> truthy v = false) ->
      resolve_model body = JStr (lit "gpt-4o-mini"))
  /\ (forall s, truthy (JStr s) = true <-> s <> []).
Proof.
  split; [| split; [| split; [| split]]].
  - intros c Hc. apply (chat_call_inv key body prov c Hc).
  - chat_cases key body.
    + rewrite (resolve_messages_err body err Hmsgs). discriminate.
    + discriminate.
    + rewrite answer_call. unfold answer. rewrite run_handle_completion.
      destruct (prov _) as [e' | [| x rest]]; simpl; try discriminate.
      intros _. eexists. reflexivity.
    + discriminate.
  - intros v Hv Ht. unfold resolve_model, dget_default. rewrite Hv, Ht. reflexivity.
  - intros Hf. unfold resolve_model, dget_default.
    destruct (dget body (lit "model")) as [v |] eqn:Hv; [rewrite (Hf v eq_refl) |]; reflexivity.
  - intros [| x xs]; simpl; split; congruence.
Qed.

(** C7: once the request is valid, a failing [float(temperature)], a
    raising provider call and a completion without choices are all
    answered 500 "OpenAI error: " followed by the error's text, after at
    most one provider call. *)
Theorem chat_provider_errors key body (prov : @call float_t -> prov_result) msgs :
  key_truthy key = true ->
  resolve_messages body = inr msgs ->
  (forall e, to_float (temperature_of body) = inl e ->
     run prov (handler key body) = ([], http_exc 500 (lit "OpenAI error: " ++ e)))
  /\ (forall t e, to_float (temperature_of body) = inr t ->
      prov (mk_call (resolve_model body) msgs t) = ProvRaise e ->
      run prov (handler key body)
      = ([mk_call (resolve_model body) msgs t], http_exc 500 (lit "OpenAI error: " ++ e)))
  /\ (forall t, to_float (temperature_of body) = inr t ->
      prov (mk_call (resolve_model body) msgs t) = ProvReturn [] ->
      run prov (handler key body)
      = ([mk_call (resolve_model body) msgs t],
         http_exc 500 (lit "OpenAI error: " ++ lit "list index out of range"))).
Proof.
  intros Hkey Hmsgs.
  unfold chat. rewrite Hkey, Hmsgs. cbv beta iota zeta delta [negb].
  split; [| split].
  - intros e Ht. rewrite Ht. reflexivity.
  - intros t e Ht Hp. rewrite Ht. cbn [run]. rewrite Hp. reflexivity.
  - intros t Ht Hp. rewrite Ht. cbn [run]. rewrite Hp. reflexivity.
Qed.

(** C10: a body whose [messages] is the empty list is never answered 400;
    the empty list is what the provider receives, whatever [input] is. *)
Theorem chat_empty_messages_accepted key body (prov : @call float_t -> prov_result) :
  dget body (lit "messages") = Some (JList []) ->
  status (answer prov (handler key body)) <> 400
  /\ (forall c, In c (calls prov (handler key body)) -> c_messages c = [])
  /\ (key_truthy key = true -> forall t, to_float (temperature_of body) = inr t ->
      calls prov (handler key body) = [mk_call (resolve_model body) [] t]).
Proof.
  intros Hm. pose proof (resolve_messages_list body [] Hm) as Hr.
  split; [| split].
  - chat_cases key body.
    + congruence.
    + discriminate.
    + rewrite answer_call.
      destruct (status_handle_completion prov (resolve_model body)
                  (prov (mk_call (resolve_model body) msgs t))) as [-> | ->];
        discriminate.
    + discriminate.
  - intros c Hc. destruct (chat_call_inv key body prov c Hc) as (_ & Hmsgs & _).
    rewrite Hr in Hmsgs. injection Hmsgs as <-. reflexivity.
  - intros Hkey t Ht. unfold chat. rewrite Hkey, Hr. cbv beta iota zeta delta [negb].
    rewrite Ht, calls_call. unfold calls. rewrite run_handle_completion. reflexivity.
Qed.

(** C1 (amended): a request that passes the credential check and is not
    answered 400 has a [messages] list (possibly empty), forwarded as it
    is, or a string [input] that is non-blank once stripped, forwarded as
    one user message. *)
Theorem chat_accepted_shape key body (prov : @call float_t -> prov_result) :
  key_truthy key = true ->
  status (answer prov (handler key body)) <> 400 ->
  (exists l, dget body (lit "messages") = Some (JList l)
     /\ forall c, In c (calls prov (handler key body)) -> c_messages c = l)
  \/ ((forall l, dget body (lit "messages") <> Some (JList l))
      /\ exists t, dget body (lit "input") = Some (JStr t) /\ strip t <> []
        /\ forall c, In c (calls prov (handler key body)) ->
             c_messages c = [user_message (strip t)]).
Proof.
  intros Hkey H400.
  destruct (resolve_messages body) as [err | msgs] eqn:Hr.
  - exfalso. apply H400. unfold chat. rewrite Hkey, Hr. cbv beta iota zeta delta [negb].
    rewrite (resolve_messages_err body err Hr). reflexivity.
  - assert (Hcall : forall c, In c (calls prov (handler key body)) -> c_messages c = msgs).
    { intros c Hc. destruct (chat_call_inv key body prov c Hc) as (_ & Hm & _).
      rewrite Hr in Hm. injection Hm as ->. reflexivity. }
    destruct (resolve_messages_ok body msgs Hr) as [Hl | (Hnl & t & Hi & Ht & ->)].
    + left. exists msgs. auto.
    + right. split; [exact Hnl |]. exists t. auto.
Qed.

End ChatProps.

(** Reading a text without carriage returns changes nothing. *)
Lemma translate_newlines_no_cr text :
  ~ In 13 text -> translate_newlines text = text.
Proof.
  induction text as [| c rest IH]; intros Hcr; [reflexivity |].
  simpl. destruct (c =? 13) eqn:Ec.
  - exfalso. apply Hcr. left. apply Z.eqb_eq in Ec. exact Ec.
  - f_equal. apply IH. intros H. apply Hcr. right. exact H.
Qed.

(** C8: GET /api/health always answers 200 with [ok: true] and a
    [provider] that is "openai" exactly when [OPENAI_API_KEY] is set to a
    non-empty value (the test [chat] uses too), and "unset" otherwise. *)
Theorem health_reflects_config (OPENAI_API_KEY : option pystr) :
  exists p,
    health OPENAI_API_KEY
    = Resp 200 (BJson (JObj [(lit "ok", JBool true); (lit "provider", JStr p)]))
    /\ (p = lit "openai" <-> key_truthy OPENAI_API_KEY = true)
    /\ (key_truthy OPENAI_API_KEY = false -> p = lit "unset").
Proof.
  unfold health. destruct (key_truthy OPENAI_API_KEY).
  - exists (lit "openai"). repeat split; auto. discriminate.
  - exists (lit "unset"). repeat split; auto; discriminate.
Qed.

(** C9 (amended): GET / answers 200 with the fallback fragment when there
    is no index.html, and 200 with the file's text as [read_text] returns
    it otherwise: line endings [\r\n] and [\r] become [\n], so the text
    is verbatim when it has no [\r]. A file that exists but cannot be
    read is not handled and gives Starlette's 500. *)
Theorem root_contract :
  root NoIndexFile
  = Resp 200 (BHtml (lit "<h1>AI Hub Backend</h1><p>Index bulunamad" ++ [305] ++ lit ".</p>"))
  /\ (forall text, root (IndexFile text) = Resp 200 (BHtml (translate_newlines text)))
  /\ (forall text, ~ In 13 text -> root (IndexFile text) = Resp 200 (BHtml text))
  /\ (forall err, root (IndexUnreadable err) = internal_error).
Proof.
  repeat split.
  intros text Hcr. simpl. rewrite (translate_newlines_no_cr text Hcr). reflexivity.
Qed.

(* ------------------------------------------------------------------ *)
(** * Concrete runs *)

(** C1 counterexample: [{"messages": []}] is accepted and the provider
    receives the empty list, although neither a non-empty [messages]
    nor a non-blank [input] is present. *)
Lemma chat_empty_messages_cex :
  let body := [(lit "messages", JList [])] in
  let p := chat float_num_exact float_str_reject (Some (lit "sk-test")) body in
  status (answer (answering_provider (lit "hi")) p) = 200
  /\ calls (answering_provider (lit "hi")) p
     = [mk_call (JStr (lit "gpt-4o-mini")) [] (7 # 10)]
  /\ ~ ((exists l, dget body (lit "messages") = Some (JList l) /\ l <> [])
        \/ (exists t, dget body (lit "input") = Some (JStr t) /\ strip t <> [])).
Proof.
  split; [reflexivity | split; [reflexivity |]].
  intros [(l & H & Hl) | (t & H & _)]; vm_compute in H.
  - injection H as <-. apply Hl. reflexivity.
  - discriminate H.
Qed.

Lemma chat_accepted_shape_witness :
  let body := [(lit "messages", JList [])] in
  (exists l, dget body (lit "messages") = Some (JList l)
     /\ forall c, In c (calls (answering_provider (lit "hi"))
                    (chat float_num_exact float_str_reject (Some (lit "sk-test")) body))
                  -> c_messages c = l)
  \/ ((forall l, dget body (lit "messages") <> Some (JList l))
      /\ exists t, dget body (lit "input") = Some (JStr t) /\ strip t <> []
        /\ forall c, In c (calls (answering_provider (lit "hi"))
                       (chat float_num_exact float_str_reject (Some (lit "sk-test")) body))
                     -> c_messages c = [user_message (strip t)]).
Proof.
  apply (chat_accepted_shape float_num_exact float_str_reject (Some (lit "sk-test"))
           [(lit "messages", JList [])] (answering_provider (lit "hi"))).
  - reflexivity.
  - vm_compute. discriminate.
Defined.

(** C2 witness: [{"input": "  Hello  "}] reaches the provider as
    [[{"role": "user", "content": "Hello"}]]. *)
Lemma chat_input_normalized_witness :
  let body := [(lit "input", JStr (lit "  Hello  "))] in
  let p := chat float_num_exact float_str_reject (Some (lit "sk-test")) body in
  calls (answering_provider (lit "hi")) p
  = [mk_call (JStr (lit "gpt-4o-mini")) [user_message (lit "Hello")] (7 # 10)]
  /\ c_messages (mk_call (JStr (lit "gpt-4o-mini")) [user_message (lit "Hello")] (7 # 10))
     = [user_message (strip (lit "  Hello  "))].
Proof.
  split; [reflexivity |].
  apply (chat_input_normalized float_num_exact float_str_reject (Some (lit "sk-test"))
           [(lit "input", JStr (lit "  Hello  "))] (answering_provider (lit "hi"))
           (lit "  Hello  ")).
  - intros l H. vm_compute in H. discriminate H.
  - reflexivity.
  - vm_compute. discriminate.
  - vm_compute. left. reflexivity.
Defined.

(** C3 witness: a [messages] list whose element is not a role/content
    pair is forwarded as it is, and changing [input] changes nothing. *)
Lemma chat_messages_passthrough_witness :
  let body := [(lit "messages", JList [JNum 1]); (lit "input", JStr (lit "x"))] in
  let body' := [(lit "messages", JList [JNum 1]); (lit "input", JNum 5)] in
  let prov := answering_provider (lit "hi") in
  let handler := chat float_num_exact float_str_reject (Some (lit "sk-test")) in
  (forall c, In c (calls prov (handler body)) -> c_messages c = [JNum 1])
  /\ run prov (handler body') = run prov (handler body).
Proof.
  apply (chat_messages_passthrough float_num_exact float_str_reject (Some (lit "sk-test"))
           [(lit "messages", JList [JNum 1]); (lit "input", JStr (lit "x"))]
           [(lit "messages", JList [JNum 1]); (lit "input", JNum 5)]
           (answering_provider (lit "hi")) [JNum 1]).
  - reflexivity.
  - intros k Hk. cbn [dget].
    destruct (pystr_eqb k (lit "messages")); [reflexivity |].
    destruct (pystr_eqb k (lit "input")) eqn:E; [| reflexivity].
    unfold pystr_eqb in E. destruct (list_eq_dec Z.eq_dec k (lit "input")) as [-> |].
    + exfalso. apply Hk. reflexivity.
    + discriminate E.
Defined.

(** C4 witness: [{"input": "   "}] and [{}] are both answered 400. *)
Lemma chat_rejects_missing_input_witness :
  chat float_num_exact float_str_reject (Some (lit "sk-test"))
       [(lit "input", JStr (lit "   "))]
  = Done (http_exc 400 (lit "Provide 'input' (string) or 'messages' (list)."))
  /\ chat float_num_exact float_str_reject (Some (lit "sk-test")) []
  = Done (http_exc 400 (lit "Provide 'input' (string) or 'messages' (list).")).
Proof.
  split.
  - apply (chat_rejects_missing_input float_num_exact float_str_reject).
    + reflexivity.
    + intros l H. vm_compute in H. discriminate H.
    + intros t H. vm_compute in H. injection H as <-. reflexivity.
  - apply (chat_rejects_missing_input float_num_exact float_str_reject).
    + reflexivity.
    + intros l H. discriminate H.
    + intros t H. discriminate H.
Defined.

(** C5 counterexample: with no credential, a JSON body that is not an
    object ([[]]) is answered 422 by FastAPI, not 500. *)
Lemma chat_no_key_non_object_cex :
  let r := answer (answering_provider (lit "hi"))
             (post_chat float_num_exact float_str_reject None (JList [])) in
  status r = 422 /\ r <> http_exc 500 (lit "OPENAI_API_KEY missing").
Proof. split; [reflexivity | vm_compute; discriminate]. Qed.

Lemma chat_requires_key_witness :
  (forall body, post_chat float_num_exact float_str_reject None (JObj body)
                = Done (http_exc 500 (lit "OPENAI_API_KEY missing")))
  /\ (forall raw, (forall o, raw <> JObj o) ->
      exists r, post_chat float_num_exact float_str_reject None raw = Done r
                /\ status r = 422).
Proof. apply (chat_requires_key float_num_exact float_str_reject None). reflexivity. Defined.

(** C6 counterexample: [{"input": "hi", "model": 0}] has a [model] field,
    yet the provider call and the response use "gpt-4o-mini". *)
Lemma chat_model_zero_cex :
  let body := [(lit "input", JStr (lit "hi")); (lit "model", JNum 0)] in
  let p := chat float_num_exact float_str_reject (Some (lit "sk-test")) body in
  dget body (lit "model") = Some (JNum 0)
  /\ calls (answering_provider (lit "hello")) p
     = [mk_call (JStr (lit "gpt-4o-mini")) [user_message (lit "hi")] (7 # 10)]
  /\ answer (answering_provider (lit "hello")) p
     = Resp 200 (BJson (JObj [(lit "model", JStr (lit "gpt-4o-mini"));
                              (lit "output", JStr (lit "hello"))]))
  /\ JStr (lit "gpt-4o-mini") <> JNum 0.
Proof. repeat split; try reflexivity. discriminate. Qed.

Lemma chat_model_resolution_witness :
  let body := [(lit "input", JStr (lit "hi")); (lit "model", JStr (lit "gpt-4o"))] in
  let prov := answering_provider (lit "hello") in
  let handler := chat float_num_exact float_str_reject (Some (lit "sk-test")) in
  resolve_model body = JStr (lit "gpt-4o")
  /\ answer prov (handler body)
     = Resp 200 (BJson (JObj [(lit "model", JStr (lit "gpt-4o"));
                              (lit "output", JStr (lit "hello"))]))
  /\ (forall c, In c (calls prov (handler body)) -> c_model c = resolve_model body).
Proof.
  destruct (chat_model_resolution float_num_exact float_str_reject (Some (lit "sk-test"))
    [(lit "input", JStr (lit "hi")); (lit "model", JStr (lit "gpt-4o"))]
    (answering_provider (lit "hello"))) as (Hcalls & _ & Htruthy & _).
  split; [| split; [reflexivity | exact Hcalls]].
  apply Htruthy; reflexivity.
Defined.

(** C7 witness: a temperature of "hot" fails [float()] and is reported as
    an OpenAI error without a call; a raising provider is called once. *)
Lemma chat_provider_errors_witness :
  let body := [(lit "input", JStr (lit "hi")); (lit "temperature", JStr (lit "hot"))] in
  let body2 := [(lit "input", JStr (lit "hi"))] in
  let c2 := mk_call (JStr (lit "gpt-4o-mini")) [user_message (lit "hi")] (7 # 10) in
  run (answering_provider (lit "x"))
      (chat float_num_exact float_str_reject (Some (lit "sk-test")) body)
  = ([], http_exc 500 (lit "OpenAI error: " ++
                       lit "could not convert string to float: 'hot'"))
  /\ run (fun _ => ProvRaise (lit "Connection error."))
         (chat float_num_exact float_str_reject (Some (lit "sk-test")) body2)
  = ([c2], http_exc 500 (lit "OpenAI error: " ++ lit "Connection error.")).
Proof.
  split.
  - destruct (chat_provider_errors float_num_exact float_str_reject (Some (lit "sk-test"))
      [(lit "input", JStr (lit "hi")); (lit "temperature", JStr (lit "hot"))]
      (answering_provider (lit "x")) [user_message (lit "hi")]) as (H & _ & _);
      [reflexivity | reflexivity |].
    apply H. reflexivity.
  - destruct (chat_provider_errors float_num_exact float_str_reject (Some (lit "sk-test"))
      [(lit "input", JStr (lit "hi"))]
      (fun _ => ProvRaise (lit "Connection error.")) [user_message (lit "hi")])
      as (_ & H & _); [reflexivity | reflexivity |].
    apply (H (7 # 10)); reflexivity.
Defined.

Lemma health_reflects_config_witness :
  health (Some (lit "sk-test"))
  = Resp 200 (BJson (JObj [(lit "ok", JBool true); (lit "provider", JStr (lit "openai"))]))
  /\ health (Some [])
  = Resp 200 (BJson (JObj [(lit "ok", JBool true); (lit "provider", JStr (lit "unset"))])).
Proof.
  split.
  - destruct (health_reflects_config (Some (lit "sk-test"))) as (p & Hh & Hiff & _).
    rewrite Hh. rewrite (proj2 Hiff eq_refl). reflexivity.
  - destruct (health_reflects_config (Some [])) as (p & Hh & _ & Hunset).
    rewrite Hh, Hunset; reflexivity.
Defined.

(** C9 counterexample: an index.html holding "a\r\nb" is served as
    "a\nb", not verbatim. *)
Lemma root_not_verbatim_cex :
  root (IndexFile (lit "a" ++ [13; 10] ++ lit "b"))
  = Resp 200 (BHtml (lit "a" ++ [10] ++ lit "b"))
  /\ root (IndexFile (lit "a" ++ [13; 10] ++ lit "b"))
     <> Resp 200 (BHtml (lit "a" ++ [13; 10] ++ lit "b")).
Proof. split; [reflexivity | vm_compute; discriminate]. Qed.

Lemma root_contract_witness :
  root (IndexFile (lit "<p>hi</p>")) = Resp 200 (BHtml (lit "<p>hi</p>"))
  /\ root NoIndexFile
     = Resp 200 (BHtml (lit "<h1>AI Hub Backend</h1><p>Index bulunamad" ++ [305] ++ lit ".</p>")).
Proof.
  destruct root_contract as (Hnone & _ & Hverb & _).
  split; [| exact Hnone].
  apply Hverb. vm_compute. intuition discriminate.
Defined.

(** C10 witness: [{"messages": [], "input": " "}] goes to the provider
    with the empty list. *)
Lemma chat_empty_messages_accepted_witness :
  let body := [(lit "messages", JList []); (lit "input", JStr (lit " "))] in
  let prov := answering_provider (lit "hi") in
  let handler := chat float_num_exact float_str_reject (Some (lit "sk-test")) in
  status (answer prov (handler body)) <> 400
  /\ calls prov (handler body) = [mk_call (JStr (lit "gpt-4o-mini")) [] (7 # 10)].
Proof.
  destruct (chat_empty_messages_accepted float_num_exact float_str_reject (Some (lit "sk-test"))
    [(lit "messages", JList []); (lit "input", JStr (lit " "))]
    (answering_provider (lit "hi"))) as (H400 & _ & Hcall); [reflexivity |].
  split; [exact H400 |].
  apply Hcall; reflexivity.
Defined.

(* ------------------------------------------------------------------ *)
(** * Further properties of the code *)

(** [lstrip] drops a whitespace prefix and stops at a non-space. *)
Lemma lstrip_split s :
  exists pre, s = pre ++ lstrip s /\ forallb isspace pre = true.
Proof.
  induction s as [| c s' IH]; [exists []; auto |].
  simpl. destruct (isspace c) eqn:Ec.
  - destruct IH as (pre & Hs & Hp). exists (c :: pre).
    simpl. rewrite Ec, <- Hs. auto.
  - exists []. auto.
Qed.

Lemma lstrip_head s x :
  hd_error (lstrip s) = Some x -> isspace x = false.
Proof.
  induction s as [| c s' IH]; simpl; [discriminate |].
  destruct (isspace c) eqn:Ec; [exact IH |].
  simpl. intros H. injection H as <-. exact Ec.
Qed.

(** [strip] only removes surrounding whitespace, and what it keeps
    neither starts nor ends with whitespace. *)
Lemma strip_split s :
  exists pre suf, s = pre ++ strip s ++ suf
    /\ forallb isspace pre = true /\ forallb isspace suf = true
    /\ (forall x, hd_error (strip s) = Some x -> isspace x = false)
    /\ (forall x, hd_error (rev (strip s)) = Some x -> isspace x = false).
Proof.
  destruct (lstrip_split s) as (pre & Hs & Hpre).
  destruct (lstrip_split (rev (lstrip s))) as (pre2 & Hs2 & Hpre2).
  exists pre, (rev pre2).
  assert (Hu : lstrip s = strip s ++ rev pre2).
  { unfold strip. rewrite <- rev_app_distr, <- Hs2, rev_involutive. reflexivity. }
  split; [| split; [exact Hpre | split; [| split]]].
  - rewrite <- Hu. exact Hs.
  - rewrite forallb_forall in *. intros x Hx. apply Hpre2. apply in_rev. exact Hx.
  - intros x Hx. apply (lstrip_head s). rewrite Hu.
    destruct (strip s); [discriminate | exact Hx].
  - intros x Hx. apply (lstrip_head (rev (lstrip s))).
    unfold strip in Hx. rewrite rev_involutive in Hx. exact Hx.
Qed.

(** Universal-newline output never contains a carriage return. *)
Lemma translate_newlines_no_cr_out n text :
  (length text <= n)%nat -> ~ In 13 (translate_newlines text).
Proof.
  revert text. induction n as [| n IH]; intros text Hlen.
  - destruct text; [intros [] | simpl in Hlen; lia].
  - destruct text as [| c rest]; [intros [] |]. simpl in Hlen |- *.
    destruct (c =? 13) eqn:Ec.
    + destruct rest as [| d rest'].
      * intros [H | []]. discriminate H.
      * destruct (d =? 10).
        -- intros [H | H]; [discriminate H |].
           apply (IH rest'); [simpl in Hlen; lia | exact H].
        -- intros [H | H]; [discriminate H |].
           apply (IH (d :: rest')); [lia | exact H].
    + intros [H | H].
      * subst c. discriminate Ec.
      * apply (IH rest); [lia | exact H].
Qed.

(** X7: the page GET / serves never contains a carriage return. *)
Theorem root_no_carriage_return idx h :
  root idx = Resp 200 (BHtml h) -> ~ In 13 h.
Proof.
  destruct idx as [| text | err]; unfold root, internal_error; intros H;
    try discriminate H; injection H as <-.
  - vm_compute. intuition discriminate.
  - apply (translate_newlines_no_cr_out (length text)). lia.
Qed.


Section ChatExtra.

Context {float_t : Type}.
Variable float_of_num : Q -> pystr + float_t.
Variable float_of_str : pystr -> pystr + float_t.

Local Abbreviation handler := (chat float_of_num float_of_str).
Local Abbreviation to_float := (py_float float_of_num float_of_str).
Local Abbreviation temperature_of body :=
  (dget_default body (lit "temperature") (JNum (7 # 10))).

Ltac split_chat key body :=
  unfold chat;
  destruct (key_truthy key) eqn:Hkey; cbv beta iota zeta delta [negb];
  [ destruct (resolve_messages body) as [?err | ?msgs] eqn:Hmsgs;
    [ | destruct (to_float (temperature_of body)) as [?e | ?t] eqn:Htemp ]
  | ].

(** X1: every answer of the chat handler is a 200 [{model, output}], the
    400 input error, the 500 missing-key error or a 500 "OpenAI error: ..."
    error; no other status or body is produced. *)
Theorem chat_answer_shapes key body (prov : @call float_t -> prov_result) :
  let r := answer prov (handler key body) in
  (exists m out, r = Resp 200 (BJson (JObj [(lit "model", m); (lit "output", out)])))
  \/ r = http_exc 400 (lit "Provide 'input' (string) or 'messages' (list).")
  \/ r = http_exc 500 (lit "OPENAI_API_KEY missing")
  \/ (exists e, r = http_exc 500 (lit "OpenAI error: " ++ e)).
Proof.
  cbv zeta. split_chat key body.
  - rewrite (resolve_messages_err body err Hmsgs). auto.
  - right. right. right. exists e. reflexivity.
  - rewrite answer_call. unfold answer. rewrite run_handle_completion.
    destruct (prov _) as [e' | [| x rest]]; simpl.
    + right. right. right. exists e'. reflexivity.
    + right. right. right. eexists. reflexivity.
    + left. do 2 eexists. reflexivity.
  - auto.
Qed.

(** X2: a request makes at most one provider call, and none at all when
    it is answered 400 or no credential is configured. *)
Theorem chat_at_most_one_call key body (prov : @call float_t -> prov_result) :
  (length (calls prov (handler key body)) <= 1)%nat
  /\ (status (answer prov (handler key body)) = 400 -> calls prov (handler key body) = [])
  /\ (key_truthy key = false -> calls prov (handler key body) = []).
Proof.
  split_chat key body; unfold calls, answer; simpl; try (repeat split; auto; discriminate).
  rewrite run_handle_completion. simpl.
  repeat split; auto.
  - intros H. destruct (prov _) as [e' | [| x rest]]; discriminate H.
  - discriminate.
Qed.

(** X3: only the [messages], [input], [model] and [temperature] fields
    of the body matter: two bodies that agree on them are handled alike. *)
Theorem chat_ignores_other_fields key body body' :
  (forall k, In k [lit "messages"; lit "input"; lit "model"; lit "temperature"] ->
     dget body' k = dget body k) ->
  handler key body' = handler key body.
Proof.
  intros Hsame.
  assert (Hmod : resolve_model body' = resolve_model body)
    by (unfold resolve_model, dget_default; rewrite Hsame; [reflexivity | simpl; auto]).
  assert (Hmsg : resolve_messages body' = resolve_messages body)
    by (unfold resolve_messages, dget_default;
        rewrite (Hsame (lit "messages")), (Hsame (lit "input")); simpl; auto).
  assert (Htemp : temperature_of body' = temperature_of body)
    by (unfold dget_default; rewrite Hsame; [reflexivity | simpl; auto]).
  unfold chat. rewrite Hmod, Hmsg, Htemp. reflexivity.
Qed.

(** X4: a message built from [input] holds the input with only its
    surrounding whitespace removed: it is non-empty, it neither starts nor
    ends with whitespace, and the input is whitespace, then it, then
    whitespace. *)
Theorem chat_input_content_trimmed key body (prov : @call float_t -> prov_result) t c :
  (forall l, dget body (lit "messages") <> Some (JList l)) ->
  dget body (lit "input") = Some (JStr t) ->
  In c (calls prov (handler key body)) ->
  exists content pre suf,
    c_messages c = [user_message content]
    /\ t = pre ++ content ++ suf
    /\ forallb isspace pre = true /\ forallb isspace suf = true
    /\ content <> []
    /\ (forall x, hd_error content = Some x -> isspace x = false)
    /\ (forall x, hd_error (rev content) = Some x -> isspace x = false).
Proof.
  intros Hm Hi Hc.
  destruct (chat_call_inv float_of_num float_of_str key body prov c Hc) as (_ & Hr & _).
  destruct (resolve_messages_ok body _ Hr) as [Hl | (_ & t' & Hi' & Ht' & Heq)].
  - exfalso. eapply Hm. exact Hl.
  - rewrite Hi in Hi'. injection Hi' as <-.
    destruct (strip_split t) as (pre & suf & Hs & Hp & Hsuf & Hhd & Hlast).
    exists (strip t), pre, suf. repeat split; auto.
Qed.

(** X5: a 200 answer comes from exactly one provider call whose result
    has at least one choice; its [output] is the first choice's content
    ([null] when absent) and its [model] is the model that was sent. *)
Theorem chat_success_first_choice key body (prov : @call float_t -> prov_result) :
  status (answer prov (handler key body)) = 200 ->
  exists c content rest,
    calls prov (handler key body) = [c]
    /\ prov c = ProvReturn (content :: rest)
    /\ answer prov (handler key body)
       = Resp 200 (BJson (JObj [(lit "model", c_model c);
           (lit "output", match content with Some s => JStr s | None => JNull end)])).
Proof.
  split_chat key body; try (rewrite ?(resolve_messages_err body err Hmsgs); discriminate).
  rewrite answer_call, calls_call. unfold answer, calls. rewrite run_handle_completion.
  simpl. destruct (prov _) as [e' | [| x rest]] eqn:Hp; simpl; try discriminate.
  intros _. exists (mk_call (resolve_model body) msgs t), x, rest. auto.
Qed.

(** X6: an absent [temperature] is sent as [float(0.7)], an explicit
    [null] fails [float()] and is answered as an OpenAI error without a
    call, and [true] is sent as [float(1)]. *)
Theorem chat_temperature_edges key body (prov : @call float_t -> prov_result) msgs :
  key_truthy key = true ->
  resolve_messages body = inr msgs ->
  (dget body (lit "temperature") = None ->
     forall c, In c (calls prov (handler key body)) -> float_of_num (7 # 10) = inr (c_temperature c))
  /\ (dget body (lit "temperature") = Some JNull ->
      run prov (handler key body)
      = ([], http_exc 500 (lit "OpenAI error: " ++
           lit "float() argument must be a string or a real number, not 'NoneType'")))
  /\ (dget body (lit "temperature") = Some (JBool true) ->
      forall c, In c (calls prov (handler key body)) -> float_of_num 1 = inr (c_temperature c)).
Proof.
  intros Hkey Hmsgs. split; [| split].
  - intros Hn c Hc.
    destruct (chat_call_inv float_of_num float_of_str key body prov c Hc) as (_ & _ & _ & Ht & _).
    unfold dget_default in Ht. rewrite Hn in Ht. exact Ht.
  - intros Hn. unfold chat, dget_default. rewrite Hkey, Hmsgs, Hn. reflexivity.
  - intros Hn c Hc.
    destruct (chat_call_inv float_of_num float_of_str key body prov c Hc) as (_ & _ & _ & Ht & _).
    unfold dget_default in Ht. rewrite Hn in Ht. exact Ht.
Qed.

End ChatExtra.

Lemma chat_at_most_one_call_witness :
  calls (answering_provider (lit "hi"))
    (chat float_num_exact float_str_reject (Some (lit "sk-test"))
          [(lit "input", JStr (lit "   "))]) = [].
Proof.
  apply (proj1 (proj2 (chat_at_most_one_call float_num_exact float_str_reject
    (Some (lit "sk-test")) [(lit "input", JStr (lit "   "))] (answering_provider (lit "hi"))))).
  reflexivity.
Defined.

Lemma chat_ignores_other_fields_witness :
  chat float_num_exact float_str_reject (Some (lit "sk-test")) [(lit "input", JStr (lit "hi"))]
  = chat float_num_exact float_str_reject (Some (lit "sk-test"))
         [(lit "input", JStr (lit "hi")); (lit "user", JStr (lit "bob"))].
Proof.
  apply (chat_ignores_other_fields float_num_exact float_str_reject).
  intros k Hk. simpl in Hk.
  destruct Hk as [<- | [<- | [<- | [<- | []]]]]; reflexivity.
Defined.

Lemma chat_input_content_trimmed_witness :
  exists content pre suf,
    c_messages (mk_call (JStr (lit "gpt-4o-mini")) [user_message (lit "Hello")] (7 # 10))
    = [user_message content]
    /\ lit "  Hello  " = pre ++ content ++ suf
    /\ forallb isspace pre = true /\ forallb isspace suf = true
    /\ content <> []
    /\ (forall x, hd_error content = Some x -> isspace x = false)
    /\ (forall x, hd_error (rev content) = Some x -> isspace x = false).
Proof.
  apply (chat_input_content_trimmed float_num_exact float_str_reject (Some (lit "sk-test"))
           [(lit "input", JStr (lit "  Hello  "))] (answering_provider (lit "hi"))).
  - intros l H. vm_compute in H. discriminate H.
  - reflexivity.
  - vm_compute. left. reflexivity.
Defined.

Lemma chat_success_first_choice_witness :
  exists c content rest,
    calls (answering_provider (lit "hello"))
      (chat float_num_exact float_str_reject (Some (lit "sk-test")) [(lit "input", JStr (lit "hi"))])
    = [c]
    /\ answering_provider (lit "hello") c = ProvReturn (content :: rest)
    /\ answer (answering_provider (lit "hello"))
         (chat float_num_exact float_str_reject (Some (lit "sk-test")) [(lit "input", JStr (lit "hi"))])
       = Resp 200 (BJson (JObj [(lit "model", c_model c);
           (lit "output", match content with Some s => JStr s | None => JNull end)])).
Proof.
  apply (chat_success_first_choice float_num_exact float_str_reject). reflexivity.
Defined.

Lemma chat_temperature_edges_witness :
  run (answering_provider (lit "hi"))
      (chat float_num_exact float_str_reject (Some (lit "sk-test"))
            [(lit "input", JStr (lit "hi")); (lit "temperature", JNull)])
  = ([], http_exc 500 (lit "OpenAI error: " ++
        lit "float() argument must be a string or a real number, not 'NoneType'")).
Proof.
  destruct (chat_temperature_edges float_num_exact float_str_reject (Some (lit "sk-test"))
    [(lit "input", JStr (lit "hi")); (lit "temperature", JNull)]
    (answering_provider (lit "hi")) [user_message (lit "hi")]) as (_ & H & _);
    [reflexivity | reflexivity |].
  apply H. reflexivity.
Defined.

Lemma root_no_carriage_return_witness : ~ In 13 root_fallback.
Proof. apply (root_no_carriage_return NoIndexFile). reflexivity. Defined.

